(** * Parameter enumeration of the Hegde & Van Essen (2007) stimulus notebook

    Shallow embedding of [doc/Tutorials/hegde_cc07.ipynb].  The notebook is a
    linear sequence of code cells, run by a Python 2.7 kernel (its metadata
    names the [python2] kernelspec, version 2.7.13).  Its own logic is
    arithmetic on ints and floats, comprehensions over lists, generators and
    a [zip], list concatenation and slicing, and calls into two external
    libraries: the stimulus constructors of [imagen] and the layouts of
    [holoviews].  The constructors and layouts are kept opaque: a call is
    recorded with the arguments it received. *)

From Stdlib Require Import ZArith List String Bool Permutation.
From Stdlib Require Import Floats.PrimFloat Floats.SpecFloat Floats.FloatOps.
From Stdlib Require Import Lia.
Import ListNotations.

Set Warnings "-inexact-float".

(** ** The fragment of Python 2.7 the notebook uses *)

Module Py.

(** Exceptions the arithmetic of the notebook can raise. *)
Inductive exn : Type :=
| ZeroDivisionError
| OverflowError
| TypeError.

Inductive exc (A : Type) : Type :=
| Ok (a : A)
| Raise (e : exn).
Arguments Ok {A} a.
Arguments Raise {A} e.

(** Values: [int] (unbounded, as Python 2 promotes to [long]), [float]
    (IEEE binary64), [str] and [None]. *)
Inductive value : Type :=
| VInt (z : Z)
| VFloat (x : float)
| VStr (s : string)
| VNone.

Definition tuple : Type := list value.

(** [numpy.pi] is the Python float 3.141592653589793. *)
Definition np_pi : float := 0x1.921fb54442d18p+1%float.

(** Conversion of an int operand to float in mixed arithmetic: correctly
    rounded, [OverflowError] when the int is too large for a double. *)
Definition int_to_float (z : Z) : exc float :=
  let x := SF2Prim (binary_normalize 53 1024 z 0 false) in
  if is_infinity x then Raise OverflowError else Ok x.

Definition float_op (op : float -> float -> exc float) (a b : value) : exc value :=
  let wrap (r : exc float) : exc value :=
    match r with Ok x => Ok (VFloat x) | Raise e => Raise e end in
  match a, b with
  | VFloat x, VFloat y => wrap (op x y)
  | VFloat x, VInt j =>
      match int_to_float j with Ok y => wrap (op x y) | Raise e => Raise e end
  | VInt i, VFloat y =>
      match int_to_float i with Ok x => wrap (op x y) | Raise e => Raise e end
  | _, _ => Raise TypeError
  end.

Fixpoint str_repeat (s : string) (n : nat) : string :=
  match n with
  | O => EmptyString
  | S n' => String.append s (str_repeat s n')
  end.

(** [a * b] *)
Definition py_mul (a b : value) : exc value :=
  match a, b with
  | VInt i, VInt j => Ok (VInt (i * j))
  | VStr s, VInt n => Ok (VStr (str_repeat s (Z.to_nat n)))
  | VInt n, VStr s => Ok (VStr (str_repeat s (Z.to_nat n)))
  | _, _ => float_op (fun x y => Ok (x * y)%float) a b
  end.

(** [a + b] *)
Definition py_add (a b : value) : exc value :=
  match a, b with
  | VInt i, VInt j => Ok (VInt (i + j))
  | VStr s, VStr t => Ok (VStr (String.append s t))
  | _, _ => float_op (fun x y => Ok (x + y)%float) a b
  end.

(** [a / b]: no [from __future__ import division] is in force, so int / int
    is floor division; a zero divisor raises for ints and floats alike. *)
Definition py_div (a b : value) : exc value :=
  match a, b with
  | VInt i, VInt j =>
      if (j =? 0)%Z then Raise ZeroDivisionError else Ok (VInt (i / j))
  | _, _ =>
      float_op (fun x y =>
                  if (y =? 0)%float then Raise ZeroDivisionError
                  else Ok (x / y)%float) a b
  end.

(** [a == b] on values; an int and a float are compared by their exact
    numerical values. *)
Definition float_eq_int (x : float) (z : Z) : bool :=
  match Prim2SF x with
  | S754_zero _ => (z =? 0)%Z
  | S754_finite s m e =>
      let v := if s then Z.neg m else Z.pos m in
      if (0 <=? e)%Z then (z =? v * 2 ^ e)%Z else (z * 2 ^ (- e) =? v)%Z
  | _ => false
  end.

Definition py_eq (a b : value) : bool :=
  match a, b with
  | VInt i, VInt j => (i =? j)%Z
  | VFloat x, VFloat y => (x =? y)%float
  | VInt i, VFloat y => float_eq_int y i
  | VFloat x, VInt j => float_eq_int x j
  | VStr s, VStr t => String.eqb s t
  | VNone, VNone => true
  | _, _ => false
  end.

Fixpoint tuple_eq (s t : tuple) : bool :=
  match s, t with
  | [], [] => true
  | a :: s', b :: t' => py_eq a b && tuple_eq s' t'
  | _, _ => false
  end.

(** Expressions: operands are evaluated left to right, the first exception
    aborts the evaluation. *)
Definition binop (op : value -> value -> exc value) (a b : exc value) : exc value :=
  match a with
  | Raise e => Raise e
  | Ok x => match b with
            | Raise e => Raise e
            | Ok y => op x y
            end
  end.

Definition int (z : Z) : exc value := Ok (VInt z).
Definition flt (x : float) : exc value := Ok (VFloat x).

(** [range(n)] returns a list in Python 2. *)
Definition range (n : Z) : list Z := map Z.of_nat (seq 0 (Z.to_nat n)).

(** A dict with tuple keys, kept as an association list in insertion order.
    Storing under a key equal ([==]) to a present one replaces its value.
    (The iteration order of a Python 2.7 dict is unspecified; nothing below
    depends on the order of [dict_keys] or [dict_values].) *)
Definition dict (V : Type) : Type := list (tuple * V).

Fixpoint dict_set {V : Type} (k : tuple) (v : V) (d : dict V) : dict V :=
  match d with
  | [] => [(k, v)]
  | (k', v') :: d' =>
      if tuple_eq k' k then (k', v) :: d' else (k', v') :: dict_set k v d'
  end.

Definition dict_keys {V : Type} (d : dict V) : list tuple := map fst d.
Definition dict_values {V : Type} (d : dict V) : list V := map snd d.

(** What a [for] clause can iterate over.  A list starts again at its first
    element every time it is iterated; a generator (or any other iterator)
    computes its elements on demand and is used up by the first loop that
    runs over it. *)
Inductive iterable (A : Type) : Type :=
| PyList (l : list A)
| PyGen (todo : list (exc A)).
Arguments PyList {A} l.
Arguments PyGen {A} todo.

Definition pending {A : Type} (it : iterable A) : list (exc A) :=
  match it with
  | PyList l => map Ok l
  | PyGen todo => todo
  end.

Definition exhausted {A : Type} (it : iterable A) : iterable A :=
  match it with
  | PyList l => PyList l
  | PyGen _ => PyGen []
  end.

(** Code that changes a state [St] and may raise. *)
Section Monad.
Variable St : Type.

Definition run (A : Type) : Type := St -> exc (A * St).

Definition ret {A : Type} (a : A) : run A := fun st => Ok (a, st).

Definition bind {A B : Type} (c : run A) (k : A -> run B) : run B :=
  fun st => match c st with
            | Ok (a, st') => k a st'
            | Raise e => Raise e
            end.

Definition lift {A : Type} (r : exc A) : run A :=
  fun st => match r with
            | Ok a => Ok (a, st)
            | Raise e => Raise e
            end.

(** The body of a loop, run once per element with the loop-carried
    variables [acc]. *)
Fixpoint for_each {A Acc : Type} (xs : list (exc A))
         (body : A -> Acc -> run Acc) (acc : Acc) : run Acc :=
  match xs with
  | [] => ret acc
  | x :: rest =>
      bind (lift x) (fun a =>
      bind (body a acc) (fun acc' =>
      for_each rest body acc'))
  end.

(** [for a in it: body]; also returns what is left of [it]. *)
Definition for_in {A Acc : Type} (it : iterable A)
           (body : A -> Acc -> run Acc) (acc : Acc) : run (Acc * iterable A) :=
  bind (for_each (pending it) body acc) (fun acc' =>
  ret (acc', exhausted it)).

(** [[e for a in it]] *)
Definition list_comp {A B : Type} (it : iterable A) (e : A -> run B)
  : run (list B) :=
  bind (for_in it (fun a acc => bind (e a) (fun b => ret (acc ++ [b]))) [])
       (fun r => ret (fst r)).

(** [{k: v for a in outer for b in inner}]: [inner] is one object, iterated
    again for every element of [outer]. *)
Definition dict_comp2 {A B V : Type} (outer : iterable A) (inner : iterable B)
           (entry : A -> B -> run (tuple * V)) : run (dict V) :=
  bind (for_in outer
          (fun a (acc : dict V * iterable B) =>
             for_in (snd acc)
               (fun b d => bind (entry a b) (fun kv =>
                           ret (dict_set (fst kv) (snd kv) d)))
               (fst acc))
          ([], inner))
       (fun r => ret (fst (fst r))).
End Monad.

Arguments ret {St A} a.
Arguments bind {St A B} c k.
Arguments lift {St A} r.
Arguments for_each {St A Acc} xs body acc.
Arguments for_in {St A Acc} it body acc.
Arguments list_comp {St A B} it e.
Arguments dict_comp2 {St A B V} outer inner entry.

End Py.

Import Py.

Declare Scope py_scope.
Delimit Scope py_scope with py.
Notation "x <- c ;; k" := (bind c (fun x => k))
  (at level 61, c at next level, right associativity) : py_scope.
Notation "c ;;; k" := (bind c (fun _ => k))
  (at level 61, right associativity) : py_scope.
Notation "a *: b" := (binop py_mul a b) (at level 40, left associativity) : py_scope.
Notation "a /: b" := (binop py_div a b) (at level 40, left associativity) : py_scope.
Notation "a +: b" := (binop py_add a b) (at level 50, left associativity) : py_scope.
Open Scope py_scope.
Open Scope string_scope.
Open Scope list_scope.
Open Scope Z_scope.

Arguments int z%_Z.
Arguments flt x%_float.
Arguments VInt z%_Z.
Arguments VFloat x%_float.

(** ** The external libraries, as the notebook uses them *)

Module Lib.

(** The stimulus classes of [imagen] the notebook instantiates. *)
Inductive pattern_class : Type :=
| SineGrating
| HyperbolicGrating
| ConcentricRings
| SpiralGrating
| RadialGrating
| Rectangle
| Asterisk
| Ring
| Angle
| ArcCentered.

(** A pattern object: its identity ([pid], the number of objects created
    before it), its class and the keyword arguments of the call that made
    it.  Pattern objects are compared by identity. *)
Record pattern : Type := {
  pid : nat;
  pclass : pattern_class;
  pargs : list (string * value)
}.

(** [hv.Layout(items)] and [hv.NdLayout(items, key_dimensions=kdims)];
    [ncols] is the value set by [.cols(n)], if any. *)
Inductive layout : Type :=
| Layout (items : list pattern) (ncols : option Z)
| NdLayout (kdims : list string) (items : dict pattern) (ncols : option Z).

Definition cols (n : Z) (l : layout) : layout :=
  match l with
  | Layout items _ => Layout items (Some n)
  | NdLayout kdims items _ => NdLayout kdims items (Some n)
  end.

Definition ncols_of (l : layout) : option Z :=
  match l with
  | Layout _ c => c
  | NdLayout _ _ c => c
  end.

Definition patterns_of (l : layout) : list pattern :=
  match l with
  | Layout items _ => items
  | NdLayout _ items _ => dict_values items
  end.

(** The state of the running kernel that the notebook touches: the
    constructor calls made so far and the layouts displayed so far (both
    newest first). *)
Record kernel : Type := {
  next_id : nat;
  calls : list pattern;
  shown : list layout
}.

Definition fresh_kernel : kernel :=
  {| next_id := 0%nat; calls := []; shown := [] |}.

Definition Run : Type -> Type := run kernel.

(** Keyword arguments are evaluated in the order they are written. *)
Fixpoint eval_args (args : list (string * exc value)) : exc (list (string * value)) :=
  match args with
  | [] => Ok []
  | (name, e) :: rest =>
      match e with
      | Raise x => Raise x
      | Ok v => match eval_args rest with
                | Raise x => Raise x
                | Ok vs => Ok ((name, v) :: vs)
                end
      end
  end.

(** A constructor call [cls(name=e, ...)]: a new object is made from the
    evaluated arguments.  What the library does with them is not modelled. *)
Definition construct (cls : pattern_class) (args : list (string * exc value))
  : Run pattern :=
  fun k =>
    match eval_args args with
    | Raise x => Raise x
    | Ok kw =>
        let p := {| pid := next_id k; pclass := cls; pargs := kw |} in
        Ok (p, {| next_id := S (next_id k);
                  calls := p :: calls k;
                  shown := shown k |})
    end.

(** The value of the last expression of a cell is displayed. *)
Definition display (l : layout) : Run unit :=
  fun k => Ok (tt, {| next_id := next_id k;
                      calls := calls k;
                      shown := l :: shown k |}).

Fixpoint kwarg (name : string) (kw : list (string * value)) : option value :=
  match kw with
  | [] => None
  | (n, v) :: rest => if String.eqb n name then Some v else kwarg name rest
  end.

End Lib.

Import Lib.

Notation "' pat <- c ;; k" := (bind c (fun x => match x with pat => k end))
  (at level 61, pat pattern, c at next level, right associativity) : py_scope.

(** ** The notebook, cell by cell

    The first code cell only imports; the [%output] and [%opts] lines of the
    second set display options. *)

Definition variants : Z := 4. (* Number of variants for each subclass *)

(** [v[:]] renders pattern [v]; a layout is recorded with the patterns
    themselves. *)
Definition sin_cell : Run (dict pattern) :=
  let orientations :=
    PyGen (map (fun i => int i *: flt np_pi /: int variants) (range variants)) in
  let frequencies := PyList [VFloat 2.0; VFloat 3.1; VFloat 4.2] in
  sin <- dict_comp2 orientations frequencies
           (fun o f =>
              v <- construct SineGrating
                     [("phase", flt np_pi /: int 2);
                      ("frequency", Ok f);
                      ("orientation", Ok o)] ;;
              ret ([o; f], v)) ;;
  let sinusoidal := NdLayout ["Orientation"; "Frequency"] sin None in
  display (cols 6 sinusoidal) ;;;
  ret sin.

(** The builtin [zip]: a list in Python 2, the kernel of the notebook; a
    one-shot iterator in Python 3. *)
Definition zip_builtin : Type :=
  list value -> list value -> iterable (value * value).
Definition zip_py2 : zip_builtin := fun a b => PyList (combine a b).
Definition zip_py3 : zip_builtin := fun a b => PyGen (map Ok (combine a b)).

Definition hyp_cell (zip : zip_builtin) : Run (dict pattern) :=
  let size_thickness :=
    zip [VFloat 0.18; VFloat 0.27; VFloat 0.36]
        [VFloat 0.015; VFloat 0.03; VFloat 0.04] in
  let orientations :=
    PyGen (map (fun i => int i *: flt np_pi /: (int 2 *: int variants))
               (range variants)) in
  hyp <- dict_comp2 orientations size_thickness
           (fun o st =>
              let s := fst st in
              let t := snd st in
              v <- construct HyperbolicGrating
                     [("size", Ok s); ("thickness", Ok t); ("orientation", Ok o)] ;;
              ret ([s; t; o], v)) ;;
  let hyperbolic := NdLayout ["Size"; "Thickness"; "Orientation"] hyp None in
  display (cols 6 hyperbolic) ;;;
  ret hyp.

(** The denominator [1+j*c] of the [ConcentricRings] arguments. *)
Definition ring_shrink (j : Z) (c : float) : exc value :=
  int 1 +: int j *: flt c.
Arguments ring_shrink j%_Z c%_float.

Record polar_ns : Type := {
  pol1 : list pattern;
  pol2 : list pattern;
  pol3 : list pattern;
  pol4 : list pattern;
  pol5 : list pattern;
  pol6 : list pattern;
  polar : list pattern
}.

Definition spirals (t0 dt s0 ds : float) : Run (list pattern) :=
  list_comp (PyList (range variants))
    (fun j => construct SpiralGrating
                [("parts", (int j +: int 1) *: int 2);
                 ("turning", flt t0 +: flt dt *: int j);
                 ("smoothing", flt s0 +: flt ds *: int j)]).
Arguments spirals (t0 dt s0 ds)%_float.

Definition polar_cell : Run polar_ns :=
  pol1 <- list_comp (PyList (range variants))
            (fun j => construct ConcentricRings
                        [("size", flt 0.35 /: ring_shrink j 0.5);
                         ("thickness", flt 0.05 /: ring_shrink j 0.35);
                         ("smoothing", flt 0.05 /: ring_shrink j 0.15)]) ;;
  pol2 <- spirals 0.19 0.30 0.110 0.015 ;;
  pol3 <- spirals 0.09 0.13 0.050 0.006 ;;
  pol4 <- spirals 0.06 0.09 0.035 0.006 ;;
  pol5 <- spirals 0.05 0.07 0.030 0.003 ;;
  pol6 <- list_comp (PyList (range variants))
            (fun j => construct RadialGrating
                        [("parts", (int j +: int 1) *: int 2)]) ;;
  let polar := pol1 ++ pol2 ++ pol3 ++ pol4 ++ pol5 ++ pol6 in
  display (cols 8 (Layout polar None)) ;;;
  ret {| pol1 := pol1; pol2 := pol2; pol3 := pol3; pol4 := pol4;
         pol5 := pol5; pol6 := pol6; polar := polar |}.

(** The contour cells each bind a list of size-0.50 patterns, a list of
    size-0.25 patterns and their concatenation, which is displayed. *)
Definition contour_cell (large small : Run (list pattern))
  : Run (list pattern * list pattern * list pattern) :=
  g1 <- large ;;
  g2 <- small ;;
  let both := g1 ++ g2 in
  display (cols 8 (Layout both None)) ;;;
  ret (g1, g2, both).

Definition bar_cell : Run (list pattern * list pattern * list pattern) :=
  contour_cell
    (list_comp (PyList (range variants))
       (fun j => construct Rectangle
                   [("orientation", int j *: flt np_pi /: int 4);
                    ("smoothing", flt 0.015);
                    ("aspect_ratio", flt 0.1);
                    ("size", flt 0.5)]))
    (list_comp (PyList (range variants))
       (fun j => construct Rectangle
                   [("orientation", int j *: flt np_pi /: int 4);
                    ("smoothing", flt 0.015);
                    ("aspect_ratio", flt 0.2);
                    ("size", flt 0.25)])).

(** [[Asterisk(parts=n, size=s, orientation=j*np.pi/d) for j in range(variants)]] *)
Definition asterisks (n : Z) (s : float) (d : Z) : Run (list pattern) :=
  list_comp (PyList (range variants))
    (fun j => construct Asterisk
                [("parts", int n);
                 ("size", flt s);
                 ("orientation", int j *: flt np_pi /: int d)]).
Arguments asterisks n%_Z s%_float d%_Z.

Definition tristar_cell : Run (list pattern * list pattern * list pattern) :=
  contour_cell (asterisks 3 0.50 2) (asterisks 3 0.25 2).

Definition cross_cell : Run (list pattern * list pattern * list pattern) :=
  contour_cell (asterisks 4 0.50 8) (asterisks 4 0.25 8).

(** [star5]/[star6]: two five-armed asterisks, then [+=] of a six-armed
    asterisk and of a ring. *)
Definition star_group (s : float) : Run (list pattern) :=
  g <- list_comp (PyList (range 2))
         (fun j => construct Asterisk
                     [("parts", int 5);
                      ("size", flt s);
                      ("orientation", int j *: flt np_pi)]) ;;
  a <- construct Asterisk [("parts", int 6); ("size", flt s)] ;;
  let g := g ++ [a] in
  r <- construct Ring
         [("smoothing", flt 0.015); ("thickness", flt 0.05); ("size", flt s)] ;;
  let g := g ++ [r] in
  ret g.
Arguments star_group s%_float.

Definition star_cell : Run (list pattern * list pattern * list pattern) :=
  contour_cell (star_group 0.50) (star_group 0.25).

(** [[Angle(size=s, angle=a, orientation=j*2*np.pi/variants) for j in range(variants)]] *)
Definition angles (s : float) (a : exc value) : Run (list pattern) :=
  list_comp (PyList (range variants))
    (fun j => construct Angle
                [("size", flt s);
                 ("angle", a);
                 ("orientation", int j *: int 2 *: flt np_pi /: int variants)]).
Arguments angles s%_float a.

Definition acute_cell : Run (list pattern * list pattern * list pattern) :=
  contour_cell (angles 0.50 (flt np_pi /: int 8)) (angles 0.25 (flt np_pi /: int 8)).

Definition right_cell : Run (list pattern * list pattern * list pattern) :=
  contour_cell (angles 0.50 (flt np_pi /: int 4)) (angles 0.25 (flt np_pi /: int 4)).

Definition obtuse_cell : Run (list pattern * list pattern * list pattern) :=
  contour_cell (angles 0.50 (flt np_pi /: int 3)) (angles 0.25 (flt np_pi /: int 3)).

(** [[ArcCentered(arc_length=a, smoothing=0.015, thickness=0.05, size=s,
                  orientation=i*2*np.pi/variants) for i in range(variants)]] *)
Definition arcs (a : exc value) (s : float) : Run (list pattern) :=
  list_comp (PyList (range variants))
    (fun i => construct ArcCentered
                [("arc_length", a);
                 ("smoothing", flt 0.015);
                 ("thickness", flt 0.05);
                 ("size", flt s);
                 ("orientation", int i *: int 2 *: flt np_pi /: int variants)]).
Arguments arcs a s%_float.

Definition quarter_cell : Run (list pattern * list pattern * list pattern) :=
  contour_cell (arcs (flt np_pi /: int 2) 0.50) (arcs (flt np_pi /: int 2) 0.25).

Definition semi_cell : Run (list pattern * list pattern * list pattern) :=
  contour_cell (arcs (flt np_pi) 0.5) (arcs (flt np_pi) 0.25).

Definition threeqtrs_cell : Run (list pattern * list pattern * list pattern) :=
  contour_cell (arcs (int 3 *: flt np_pi /: int 2) 0.50)
               (arcs (int 3 *: flt np_pi /: int 2) 0.25).

(** The names bound when the last cell has run. *)
Record namespace : Type := {
  sin : dict pattern;
  hyp : dict pattern;
  polars : polar_ns;
  bar1 : list pattern;  bar2 : list pattern;  bar : list pattern;
  star1 : list pattern; star2 : list pattern; tristar : list pattern;
  star3 : list pattern; star4 : list pattern; cross : list pattern;
  star5 : list pattern; star6 : list pattern; star : list pattern;
  ang1 : list pattern;  ang2 : list pattern;  acute : list pattern;
  ang3 : list pattern;  ang4 : list pattern;  right : list pattern;
  ang5 : list pattern;  ang6 : list pattern;  obtuse : list pattern;
  arc1 : list pattern;  arc2 : list pattern;  quarter : list pattern;
  arc3 : list pattern;  arc4 : list pattern;  semi : list pattern;
  arc5 : list pattern;  arc6 : list pattern;  threeqtrs : list pattern;
  concentric_like : list pattern;
  radial_like : list pattern;
  grating_stimuli_subclasses : list (list pattern);
  grating_stimuli_subclasses_labels : list string;
  contour_stimuli_subclasses : list (list pattern);
  contour_stimuli_subclasses_labels : list string;
  all_stimuli_subclasses : list (list pattern);
  all_stimuli_subclasses_labels : list string
}.

(** The whole notebook, run top to bottom.  In the last cell the two string
    literals ['sinusoidal''hyperbolic'] stand next to each other with no
    comma between them, which Python reads as one literal. *)
Definition notebook_with (zip : zip_builtin) : Run namespace :=
  sin <- sin_cell ;;
  hyp <- hyp_cell zip ;;
  pol <- polar_cell ;;
  ' (bar1, bar2, bar) <- bar_cell ;;
  ' (star1, star2, tristar) <- tristar_cell ;;
  ' (star3, star4, cross) <- cross_cell ;;
  ' (star5, star6, star) <- star_cell ;;
  ' (ang1, ang2, acute) <- acute_cell ;;
  ' (ang3, ang4, right) <- right_cell ;;
  ' (ang5, ang6, obtuse) <- obtuse_cell ;;
  ' (arc1, arc2, quarter) <- quarter_cell ;;
  ' (arc3, arc4, semi) <- semi_cell ;;
  ' (arc5, arc6, threeqtrs) <- threeqtrs_cell ;;
  let concentric_like :=
    pol1 pol ++ skipn 1 (pol2 pol) ++ skipn 2 (pol3 pol) ++ skipn 2 (pol4 pol)
         ++ skipn 3 (pol5 pol) in
  let radial_like :=
    firstn 1 (pol2 pol) ++ firstn 2 (pol3 pol) ++ firstn 2 (pol4 pol)
           ++ firstn 3 (pol5 pol) ++ pol6 pol in
  let grating_stimuli_subclasses :=
    [dict_values sin; dict_values hyp; concentric_like; radial_like] in
  let grating_stimuli_subclasses_labels :=
    [String.append "sinusoidal" "hyperbolic"; "concentric-like"; "radial-like"] in
  let contour_stimuli_subclasses :=
    [bar; tristar; cross; star; acute; right; obtuse; quarter; semi; threeqtrs] in
  let contour_stimuli_subclasses_labels :=
    ["bar"; "tri-star"; "cross"; "star/circle"; "acute angle";
     "right angle"; "obtuse angle"; "quarter arc"; "semi-circle"; "3/4 arc"] in
  let all_stimuli_subclasses :=
    grating_stimuli_subclasses ++ contour_stimuli_subclasses in
  let all_stimuli_subclasses_labels :=
    grating_stimuli_subclasses_labels ++ contour_stimuli_subclasses_labels in
  ret {| sin := sin; hyp := hyp; polars := pol;
         bar1 := bar1; bar2 := bar2; bar := bar;
         star1 := star1; star2 := star2; tristar := tristar;
         star3 := star3; star4 := star4; cross := cross;
         star5 := star5; star6 := star6; star := star;
         ang1 := ang1; ang2 := ang2; acute := acute;
         ang3 := ang3; ang4 := ang4; right := right;
         ang5 := ang5; ang6 := ang6; obtuse := obtuse;
         arc1 := arc1; arc2 := arc2; quarter := quarter;
         arc3 := arc3; arc4 := arc4; semi := semi;
         arc5 := arc5; arc6 := arc6; threeqtrs := threeqtrs;
         concentric_like := concentric_like;
         radial_like := radial_like;
         grating_stimuli_subclasses := grating_stimuli_subclasses;
         grating_stimuli_subclasses_labels := grating_stimuli_subclasses_labels;
         contour_stimuli_subclasses := contour_stimuli_subclasses;
         contour_stimuli_subclasses_labels := contour_stimuli_subclasses_labels;
         all_stimuli_subclasses := all_stimuli_subclasses;
         all_stimuli_subclasses_labels := all_stimuli_subclasses_labels |}.

Definition notebook : Run namespace := notebook_with zip_py2.

(** The closing markdown cell offers one more layout to the reader:
    [hv.Layout([p[:] for c in all_stimuli_subclasses for p in c]).cols(8)]. *)
Definition view_all (ns : namespace) : layout :=
  cols 8 (Layout (List.concat (all_stimuli_subclasses ns)) None).

(** ** Predicates used in the statements *)

(** No key is equal ([==]) to a later one. *)
Fixpoint distinct_keys (ks : list tuple) : bool :=
  match ks with
  | [] => true
  | k :: rest => forallb (fun k' => negb (tuple_eq k k')) rest && distinct_keys rest
  end.

(** The sizes and thicknesses zipped in the hyperbolic cell, and the
    frequencies of the sinusoidal cell. *)
Definition size_thickness_pairs : list (value * value) :=
  [(VFloat 0.18, VFloat 0.015); (VFloat 0.27, VFloat 0.03); (VFloat 0.36, VFloat 0.04)].

Definition frequency_list : list value := [VFloat 2.0; VFloat 3.1; VFloat 4.2].

(** A value a stimulus parameter can take: an int, or a float that is a
    real number (neither an infinity nor a NaN). *)
Definition is_numeric (v : value) : bool :=
  match v with
  | VInt _ => true
  | VFloat x => negb (is_nan x) && negb (is_infinity x)
  | VStr _ => false
  | VNone => false
  end.

Definition numeric_callb (p : pattern) : bool :=
  forallb (fun kv => is_numeric (snd kv)) (pargs p).

(** Every keyword argument of the call that made [p] is numeric. *)
Definition numeric_call (p : pattern) : Prop :=
  forall name v, In (name, v) (pargs p) -> is_numeric v = true.

(** The [size] argument a pattern was made with. *)
Definition size_of (p : pattern) : option value := kwarg "size" (pargs p).

Definition size_is (s : float) (p : pattern) : Prop :=
  size_of p = Some (VFloat s).
Arguments size_is s%_float p.

(** A denominator that evaluates, without raising, to a float other than
    zero. *)
Definition nonzero_float (e : exc value) : Prop :=
  exists d, e = Ok (VFloat d) /\ (d =? 0)%float = false.

(** The contour subclasses with the two lists each is concatenated from. *)
Definition contour_groups (ns : namespace)
  : list (list pattern * list pattern * list pattern) :=
  [(bar ns, bar1 ns, bar2 ns);
   (tristar ns, star1 ns, star2 ns);
   (cross ns, star3 ns, star4 ns);
   (star ns, star5 ns, star6 ns);
   (acute ns, ang1 ns, ang2 ns);
   (right ns, ang3 ns, ang4 ns);
   (obtuse ns, ang5 ns, ang6 ns);
   (quarter ns, arc1 ns, arc2 ns);
   (semi ns, arc3 ns, arc4 ns);
   (threeqtrs ns, arc5 ns, arc6 ns)].

(** A subclass [sub] made of four size-0.50 patterns followed by four
    size-0.25 patterns. *)
Definition two_sizes (sub large small : list pattern) : Prop :=
  sub = large ++ small /\
  List.length large = 4%nat /\
  List.length small = 4%nat /\
  Forall (size_is 0.50) large /\
  Forall (size_is 0.25) small /\
  List.length sub = 8%nat /\
  Z.of_nat (List.length sub) = 2 * variants.

(** What a pattern was made from, without its identity. *)
Definition call_of (p : pattern) : pattern_class * list (string * value) :=
  (pclass p, pargs p).

(** The parameter tuples the notebook enumerates: the keys of the two dicts
    and, subclass by subclass, the arguments of the patterns. *)
Definition parameters (ns : namespace)
  : list tuple * list tuple * list (list (pattern_class * list (string * value))) :=
  (dict_keys (sin ns), dict_keys (hyp ns),
   map (map call_of) (all_stimuli_subclasses ns)).

(** What a run of the notebook from kernel state [k0] lets one see through
    [f]. *)
Definition observe {T : Type} (zip : zip_builtin) (k0 : kernel)
           (f : namespace -> kernel -> T) : exc T :=
  match notebook_with zip k0 with
  | Ok (ns, k) => Ok (f ns k)
  | Raise e => Raise e
  end.

(** ** The notebook for any number of variants

    The second cell binds [variants = 4] and every later cell reads that
    name.  Here are the same cells with the bound value left open, to see
    what an edit of that line does; [contour_cell], [star_group] and
    [star_cell] do not read [variants] and are the ones above. *)

Module AnyVariants.
Section Cells.
Variable variants : Z.

Definition sin_cell : Run (dict pattern) :=
  let orientations :=
    PyGen (map (fun i => int i *: flt np_pi /: int variants) (range variants)) in
  let frequencies := PyList [VFloat 2.0; VFloat 3.1; VFloat 4.2] in
  sin <- dict_comp2 orientations frequencies
           (fun o f =>
              v <- construct SineGrating
                     [("phase", flt np_pi /: int 2);
                      ("frequency", Ok f);
                      ("orientation", Ok o)] ;;
              ret ([o; f], v)) ;;
  let sinusoidal := NdLayout ["Orientation"; "Frequency"] sin None in
  display (cols 6 sinusoidal) ;;;
  ret sin.

Definition hyp_cell (zip : zip_builtin) : Run (dict pattern) :=
  let size_thickness :=
    zip [VFloat 0.18; VFloat 0.27; VFloat 0.36]
        [VFloat 0.015; VFloat 0.03; VFloat 0.04] in
  let orientations :=
    PyGen (map (fun i => int i *: flt np_pi /: (int 2 *: int variants))
               (range variants)) in
  hyp <- dict_comp2 orientations size_thickness
           (fun o st =>
              let s := fst st in
              let t := snd st in
              v <- construct HyperbolicGrating
                     [("size", Ok s); ("thickness", Ok t); ("orientation", Ok o)] ;;
              ret ([s; t; o], v)) ;;
  let hyperbolic := NdLayout ["Size"; "Thickness"; "Orientation"] hyp None in
  display (cols 6 hyperbolic) ;;;
  ret hyp.

Definition spirals (t0 dt s0 ds : float) : Run (list pattern) :=
  list_comp (PyList (range variants))
    (fun j => construct SpiralGrating
                [("parts", (int j +: int 1) *: int 2);
                 ("turning", flt t0 +: flt dt *: int j);
                 ("smoothing", flt s0 +: flt ds *: int j)]).
Arguments spirals (t0 dt s0 ds)%_float.

Definition polar_cell : Run polar_ns :=
  pol1 <- list_comp (PyList (range variants))
            (fun j => construct ConcentricRings
                        [("size", flt 0.35 /: ring_shrink j 0.5);
                         ("thickness", flt 0.05 /: ring_shrink j 0.35);
                         ("smoothing", flt 0.05 /: ring_shrink j 0.15)]) ;;
  pol2 <- spirals 0.19 0.30 0.110 0.015 ;;
  pol3 <- spirals 0.09 0.13 0.050 0.006 ;;
  pol4 <- spirals 0.06 0.09 0.035 0.006 ;;
  pol5 <- spirals 0.05 0.07 0.030 0.003 ;;
  pol6 <- list_comp (PyList (range variants))
            (fun j => construct RadialGrating
                        [("parts", (int j +: int 1) *: int 2)]) ;;
  let polar := pol1 ++ pol2 ++ pol3 ++ pol4 ++ pol5 ++ pol6 in
  display (cols 8 (Layout polar None)) ;;;
  ret {| pol1 := pol1; pol2 := pol2; pol3 := pol3; pol4 := pol4;
         pol5 := pol5; pol6 := pol6; polar := polar |}.

Definition bar_cell : Run (list pattern * list pattern * list pattern) :=
  contour_cell
    (list_comp (PyList (range variants))
       (fun j => construct Rectangle
                   [("orientation", int j *: flt np_pi /: int 4);
                    ("smoothing", flt 0.015);
                    ("aspect_ratio", flt 0.1);
                    ("size", flt 0.5)]))
    (list_comp (PyList (range variants))
       (fun j => construct Rectangle
                   [("orientation", int j *: flt np_pi /: int 4);
                    ("smoothing", flt 0.015);
                    ("aspect_ratio", flt 0.2);
                    ("size", flt 0.25)])).

(** [[Asterisk(parts=n, size=s, orientation=j*np.pi/d) for j in range(variants)]] *)
Definition asterisks (n : Z) (s : float) (d : Z) : Run (list pattern) :=
  list_comp (PyList (range variants))
    (fun j => construct Asterisk
                [("parts", int n);
                 ("size", flt s);
                 ("orientation", int j *: flt np_pi /: int d)]).
Arguments asterisks n%_Z s%_float d%_Z.

Definition tristar_cell : Run (list pattern * list pattern * list pattern) :=
  contour_cell (asterisks 3 0.50 2) (asterisks 3 0.25 2).

Definition cross_cell : Run (list pattern * list pattern * list pattern) :=
  contour_cell (asterisks 4 0.50 8) (asterisks 4 0.25 8).

(** [[Angle(size=s, angle=a, orientation=j*2*np.pi/variants) for j in range(variants)]] *)
Definition angles (s : float) (a : exc value) : Run (list pattern) :=
  list_comp (PyList (range variants))
    (fun j => construct Angle
                [("size", flt s);
                 ("angle", a);
                 ("orientation", int j *: int 2 *: flt np_pi /: int variants)]).
Arguments angles s%_float a.

Definition acute_cell : Run (list pattern * list pattern * list pattern) :=
  contour_cell (angles 0.50 (flt np_pi /: int 8)) (angles 0.25 (flt np_pi /: int 8)).

Definition right_cell : Run (list pattern * list pattern * list pattern) :=
  contour_cell (angles 0.50 (flt np_pi /: int 4)) (angles 0.25 (flt np_pi /: int 4)).

Definition obtuse_cell : Run (list pattern * list pattern * list pattern) :=
  contour_cell (angles 0.50 (flt np_pi /: int 3)) (angles 0.25 (flt np_pi /: int 3)).

(** [[ArcCentered(arc_length=a, smoothing=0.015, thickness=0.05, size=s,
                  orientation=i*2*np.pi/variants) for i in range(variants)]] *)
Definition arcs (a : exc value) (s : float) : Run (list pattern) :=
  list_comp (PyList (range variants))
    (fun i => construct ArcCentered
                [("arc_length", a);
                 ("smoothing", flt 0.015);
                 ("thickness", flt 0.05);
                 ("size", flt s);
                 ("orientation", int i *: int 2 *: flt np_pi /: int variants)]).
Arguments arcs a s%_float.

Definition quarter_cell : Run (list pattern * list pattern * list pattern) :=
  contour_cell (arcs (flt np_pi /: int 2) 0.50) (arcs (flt np_pi /: int 2) 0.25).

Definition semi_cell : Run (list pattern * list pattern * list pattern) :=
  contour_cell (arcs (flt np_pi) 0.5) (arcs (flt np_pi) 0.25).

Definition threeqtrs_cell : Run (list pattern * list pattern * list pattern) :=
  contour_cell (arcs (int 3 *: flt np_pi /: int 2) 0.50)
               (arcs (int 3 *: flt np_pi /: int 2) 0.25).

(** The cells in notebook order, with the bound value in place of 4. *)
Definition notebook_with (zip : zip_builtin) : Run namespace :=
  sin <- sin_cell ;;
  hyp <- hyp_cell zip ;;
  pol <- polar_cell ;;
  ' (bar1, bar2, bar) <- bar_cell ;;
  ' (star1, star2, tristar) <- tristar_cell ;;
  ' (star3, star4, cross) <- cross_cell ;;
  ' (star5, star6, star) <- star_cell ;;
  ' (ang1, ang2, acute) <- acute_cell ;;
  ' (ang3, ang4, right) <- right_cell ;;
  ' (ang5, ang6, obtuse) <- obtuse_cell ;;
  ' (arc1, arc2, quarter) <- quarter_cell ;;
  ' (arc3, arc4, semi) <- semi_cell ;;
  ' (arc5, arc6, threeqtrs) <- threeqtrs_cell ;;
  let concentric_like :=
    pol1 pol ++ skipn 1 (pol2 pol) ++ skipn 2 (pol3 pol) ++ skipn 2 (pol4 pol)
         ++ skipn 3 (pol5 pol) in
  let radial_like :=
    firstn 1 (pol2 pol) ++ firstn 2 (pol3 pol) ++ firstn 2 (pol4 pol)
           ++ firstn 3 (pol5 pol) ++ pol6 pol in
  let grating_stimuli_subclasses :=
    [dict_values sin; dict_values hyp; concentric_like; radial_like] in
  let grating_stimuli_subclasses_labels :=
    [String.append "sinusoidal" "hyperbolic"; "concentric-like"; "radial-like"] in
  let contour_stimuli_subclasses :=
    [bar; tristar; cross; star; acute; right; obtuse; quarter; semi; threeqtrs] in
  let contour_stimuli_subclasses_labels :=
    ["bar"; "tri-star"; "cross"; "star/circle"; "acute angle";
     "right angle"; "obtuse angle"; "quarter arc"; "semi-circle"; "3/4 arc"] in
  let all_stimuli_subclasses :=
    grating_stimuli_subclasses ++ contour_stimuli_subclasses in
  let all_stimuli_subclasses_labels :=
    grating_stimuli_subclasses_labels ++ contour_stimuli_subclasses_labels in
  ret {| sin := sin; hyp := hyp; polars := pol;
         bar1 := bar1; bar2 := bar2; bar := bar;
         star1 := star1; star2 := star2; tristar := tristar;
         star3 := star3; star4 := star4; cross := cross;
         star5 := star5; star6 := star6; star := star;
         ang1 := ang1; ang2 := ang2; acute := acute;
         ang3 := ang3; ang4 := ang4; right := right;
         ang5 := ang5; ang6 := ang6; obtuse := obtuse;
         arc1 := arc1; arc2 := arc2; quarter := quarter;
         arc3 := arc3; arc4 := arc4; semi := semi;
         arc5 := arc5; arc6 := arc6; threeqtrs := threeqtrs;
         concentric_like := concentric_like;
         radial_like := radial_like;
         grating_stimuli_subclasses := grating_stimuli_subclasses;
         grating_stimuli_subclasses_labels := grating_stimuli_subclasses_labels;
         contour_stimuli_subclasses := contour_stimuli_subclasses;
         contour_stimuli_subclasses_labels := contour_stimuli_subclasses_labels;
         all_stimuli_subclasses := all_stimuli_subclasses;
         all_stimuli_subclasses_labels := all_stimuli_subclasses_labels |}.

End Cells.
End AnyVariants.

(** What a run for [variants = n] from kernel state [k0] lets one see
    through [f]. *)
Definition observe_any {T : Type} (n : Z) (zip : zip_builtin) (k0 : kernel)
           (f : namespace -> kernel -> T) : exc T :=
  match AnyVariants.notebook_with n zip k0 with
  | Ok (ns, k) => Ok (f ns k)
  | Raise e => Raise e
  end.

(** The run for [variants = n] in a fresh kernel returns and passes [chk]. *)
Definition checked (zip : zip_builtin) (chk : Z -> namespace -> kernel -> bool)
           (n : Z) : bool :=
  match AnyVariants.notebook_with n zip fresh_kernel with
  | Ok (ns, k) => chk n ns k
  | Raise _ => false
  end.

(** ** Facts about the model *)

(** *** Running the notebook *)

Lemma observe_same (T : Type) (zip : zip_builtin) (k0 : kernel)
      (f g : namespace -> kernel -> T) (ns : namespace) (k : kernel) :
  notebook_with zip k0 = Ok (ns, k) ->
  observe zip k0 f = observe zip k0 g ->
  f ns k = g ns k.
Proof.
  unfold observe. intros ->. intros H. now injection H.
Qed.

(** Two runs seen through the same [f]. *)
Lemma observe_agree (T : Type) (zip : zip_builtin) (k1 k2 : kernel)
      (f : namespace -> kernel -> T) (ns1 ns2 : namespace) (k1' k2' : kernel) :
  notebook_with zip k1 = Ok (ns1, k1') ->
  notebook_with zip k2 = Ok (ns2, k2') ->
  observe zip k1 f = observe zip k2 f ->
  f ns1 k1' = f ns2 k2'.
Proof.
  unfold observe. intros -> -> H. now injection H.
Qed.

(** Settles an equation between two things seen in the result of the run
    [Hrun] by running the notebook. *)
Ltac observed Hrun :=
  lazymatch type of Hrun with
  | notebook_with ?zip ?k0 = Ok (?ns, ?k) =>
      lazymatch goal with
      | |- ?L = ?R =>
          let fL := eval pattern ns, k in L in
          let fR := eval pattern ns, k in R in
          lazymatch fL with
          | ?f _ _ =>
              lazymatch fR with
              | ?g _ _ =>
                  apply (observe_same _ zip k0 f g ns k Hrun);
                  vm_compute; reflexivity
              end
          end
      end
  end.

(** The notebook runs to its end from any state of the kernel. *)
Lemma notebook_returns (k0 : kernel) :
  exists ns k, notebook_with zip_py2 k0 = Ok (ns, k).
Proof.
  destruct k0 as [n c s]. do 2 eexists. vm_compute. reflexivity.
Qed.

Lemma notebook_py3_returns (k0 : kernel) :
  exists ns k, notebook_with zip_py3 k0 = Ok (ns, k).
Proof.
  destruct k0 as [n c s]. do 2 eexists. vm_compute. reflexivity.
Qed.

(** *** Lists *)

Lemma Forall_of_map_repeat (A B : Type) (f : A -> B) (b : B) (n : nat) (l : list A) :
  map f l = repeat b n -> Forall (fun a => f a = b) l.
Proof.
  revert n. induction l as [| a l IH]; intros n H; [constructor |].
  destruct n as [| n]; [discriminate H |].
  simpl in H. injection H as Ha Hl.
  constructor; [exact Ha | exact (IH n Hl)].
Qed.

Lemma numeric_callb_sound (p : pattern) :
  numeric_callb p = true -> numeric_call p.
Proof.
  unfold numeric_callb, numeric_call. intros H name v Hin.
  rewrite forallb_forall in H. exact (H (name, v) Hin).
Qed.

Lemma Forall_numeric_call (l : list pattern) :
  forallb numeric_callb l = true -> Forall numeric_call l.
Proof.
  intros H. rewrite forallb_forall in H. apply Forall_forall.
  intros p Hp. apply numeric_callb_sound, H, Hp.
Qed.

Lemma NoDup_app_disjoint (A : Type) (l l' : list A) :
  NoDup (l ++ l') -> forall x, In x l -> ~ In x l'.
Proof.
  induction l as [| a l IH]; simpl; intros H x Hx; [contradiction |].
  inversion H as [| ? ? Hnotin Hrest]; subst.
  destruct Hx as [-> | Hx].
  - intros Hin. apply Hnotin. apply in_or_app. now right.
  - now apply IH.
Qed.

Lemma perm_regroup (A : Type) (s f X Y Z : list A) :
  Permutation (X ++ Y) Z ->
  Permutation ((s ++ X) ++ (f ++ Y)) ((f ++ s) ++ Z).
Proof.
  intros H.
  rewrite <- !app_assoc.
  transitivity (f ++ s ++ X ++ Y).
  - transitivity (s ++ f ++ X ++ Y).
    + apply Permutation_app_head, Permutation_app_swap_app.
    + apply Permutation_app_swap_app.
  - now do 2 apply Permutation_app_head.
Qed.

(** The slices taken in the last cell put every element of [p2] .. [p5] on
    exactly one side. *)
Lemma slices_partition (A : Type) (p1 p2 p3 p4 p5 p6 : list A) :
  Permutation
    ((p1 ++ skipn 1 p2 ++ skipn 2 p3 ++ skipn 2 p4 ++ skipn 3 p5)
       ++ (firstn 1 p2 ++ firstn 2 p3 ++ firstn 2 p4 ++ firstn 3 p5 ++ p6))
    (p1 ++ p2 ++ p3 ++ p4 ++ p5 ++ p6).
Proof.
  rewrite <- (firstn_skipn 1 p2) at 3.
  rewrite <- (firstn_skipn 2 p3) at 3.
  rewrite <- (firstn_skipn 2 p4) at 3.
  rewrite <- (firstn_skipn 3 p5) at 3.
  rewrite <- (app_assoc p1).
  apply Permutation_app_head.
  apply perm_regroup, perm_regroup, perm_regroup.
  rewrite <- (app_nil_r (skipn 3 p5)) at 1.
  apply perm_regroup. reflexivity.
Qed.

(** *** Dicts *)

(** Storing into a dict whose keys are pairwise different keeps them so. *)
Lemma dict_set_keeps_fresh (V : Type) (k k0 : tuple) (v : V) (d : dict V) :
  tuple_eq k0 k = false ->
  forallb (fun k' => negb (tuple_eq k0 k')) (dict_keys d) = true ->
  forallb (fun k' => negb (tuple_eq k0 k')) (dict_keys (dict_set k v d)) = true.
Proof.
  intros Hk. induction d as [| [k1 v1] d IH]; simpl.
  - intros _. now rewrite Hk.
  - intros H. apply andb_true_iff in H as [H1 H2].
    destruct (tuple_eq k1 k); simpl; rewrite H1; simpl; auto.
Qed.

Lemma dict_set_distinct (V : Type) (k : tuple) (v : V) (d : dict V) :
  distinct_keys (dict_keys d) = true ->
  distinct_keys (dict_keys (dict_set k v d)) = true.
Proof.
  induction d as [| [k1 v1] d IH]; simpl; [reflexivity |].
  intros H. apply andb_true_iff in H as [H1 H2].
  destruct (tuple_eq k1 k) eqn:E; simpl.
  - now rewrite H1, H2.
  - rewrite (dict_set_keeps_fresh V k k1 v d E H1). simpl. auto.
Qed.

(** ** The claims *)

(** C3: the sinusoidal cell stores one grating per combination of the four
    orientations i*pi/4 (i = 0..3) and the three frequencies 2.0, 3.1, 4.2:
    the keys of [sin] are these twelve (orientation, frequency) tuples, no
    two of them equal. *)
Theorem sin_has_twelve_keys :
  exists ns k,
    notebook fresh_kernel = Ok (ns, k) /\
    dict_keys (sin ns)
    = flat_map (fun o => map (fun f => [o; f]) frequency_list)
        [VFloat 0; VFloat (np_pi / 4); VFloat (2 * np_pi / 4); VFloat (3 * np_pi / 4)] /\
    List.length (dict_keys (sin ns)) = 12%nat /\
    List.length (sin ns) = 12%nat /\
    distinct_keys (dict_keys (sin ns)) = true /\
    Forall (fun p => pclass p = SineGrating) (dict_values (sin ns)).
Proof.
  destruct (notebook_returns fresh_kernel) as (ns & k & Hrun).
  exists ns, k. split; [exact Hrun |].
  repeat split; try (observed Hrun).
  apply (Forall_of_map_repeat _ _ pclass SineGrating 12). observed Hrun.
Qed.

(** C1: the hyperbolic cell stores one grating per combination of the four
    orientations i*pi/8 (i = 0..3) and the three (size, thickness) pairs
    (0.18, 0.015), (0.27, 0.03), (0.36, 0.04): the keys of [hyp] are these
    twelve (size, thickness, orientation) tuples, no two of them equal. *)
Theorem hyp_has_twelve_keys :
  exists ns k,
    notebook fresh_kernel = Ok (ns, k) /\
    dict_keys (hyp ns)
    = flat_map (fun o => map (fun st => [fst st; snd st; o]) size_thickness_pairs)
        [VFloat 0; VFloat (np_pi / 8); VFloat (2 * np_pi / 8); VFloat (3 * np_pi / 8)] /\
    List.length (dict_keys (hyp ns)) = 12%nat /\
    List.length (hyp ns) = 12%nat /\
    distinct_keys (dict_keys (hyp ns)) = true /\
    Forall (fun p => pclass p = HyperbolicGrating) (dict_values (hyp ns)).
Proof.
  destruct (notebook_returns fresh_kernel) as (ns & k & Hrun).
  exists ns, k. split; [exact Hrun |].
  repeat split; try (observed Hrun).
  apply (Forall_of_map_repeat _ _ pclass HyperbolicGrating 12). observed Hrun.
Qed.

(** The count of C1 rests on [zip] returning a list, as it does in the
    Python 2 kernel the notebook names: with an iterator for [zip] the inner
    loop finds it used up after the first orientation and [hyp] keeps three
    entries. *)
Remark hyp_with_iterator_zip :
  exists ns k,
    notebook_with zip_py3 fresh_kernel = Ok (ns, k) /\
    List.length (hyp ns) = 3%nat /\
    List.length (sin ns) = 12%nat.
Proof.
  destruct (notebook_py3_returns fresh_kernel) as (ns & k & Hrun).
  exists ns, k. split; [exact Hrun |].
  split; observed Hrun.
Qed.

(** C4: [concentric_like] and [radial_like] split the 24 patterns of [polar]
    (no object occurs in it twice) into two lists of 12: together they hold
    the elements of [polar], no pattern is in both, and every pattern of
    [polar] is in exactly one of them. *)
Theorem polar_partition :
  exists ns k,
    notebook fresh_kernel = Ok (ns, k) /\
    polar (polars ns)
    = pol1 (polars ns) ++ pol2 (polars ns) ++ pol3 (polars ns)
        ++ pol4 (polars ns) ++ pol5 (polars ns) ++ pol6 (polars ns) /\
    List.length (polar (polars ns)) = 24%nat /\
    NoDup (map pid (polar (polars ns))) /\
    List.length (concentric_like ns) = 12%nat /\
    List.length (radial_like ns) = 12%nat /\
    Permutation (concentric_like ns ++ radial_like ns) (polar (polars ns)) /\
    (forall p, In p (concentric_like ns) -> ~ In p (radial_like ns)) /\
    (forall p, In p (polar (polars ns)) ->
               (In p (concentric_like ns) /\ ~ In p (radial_like ns))
               \/ (In p (radial_like ns) /\ ~ In p (concentric_like ns))).
Proof.
  destruct (notebook_returns fresh_kernel) as (ns & k & Hrun).
  exists ns, k. split; [exact Hrun |].
  assert (Hc : concentric_like ns
               = pol1 (polars ns) ++ skipn 1 (pol2 (polars ns))
                   ++ skipn 2 (pol3 (polars ns)) ++ skipn 2 (pol4 (polars ns))
                   ++ skipn 3 (pol5 (polars ns))) by observed Hrun.
  assert (Hr : radial_like ns
               = firstn 1 (pol2 (polars ns)) ++ firstn 2 (pol3 (polars ns))
                   ++ firstn 2 (pol4 (polars ns)) ++ firstn 3 (pol5 (polars ns))
                   ++ pol6 (polars ns)) by observed Hrun.
  assert (Hp : polar (polars ns)
               = pol1 (polars ns) ++ pol2 (polars ns) ++ pol3 (polars ns)
                   ++ pol4 (polars ns) ++ pol5 (polars ns) ++ pol6 (polars ns))
    by observed Hrun.
  assert (Hids : map pid (polar (polars ns)) = seq 24 24) by observed Hrun.
  assert (Hnodup : NoDup (polar (polars ns))).
  { apply (NoDup_map_inv pid). rewrite Hids. apply seq_NoDup. }
  assert (Hperm : Permutation (concentric_like ns ++ radial_like ns)
                              (polar (polars ns))).
  { rewrite Hc, Hr, Hp. apply slices_partition. }
  assert (Hdisj : forall p, In p (concentric_like ns) -> ~ In p (radial_like ns)).
  { apply NoDup_app_disjoint.
    apply (Permutation_NoDup (Permutation_sym Hperm) Hnodup). }
  split; [exact Hp |].
  split; [rewrite <- (length_map pid), Hids; apply length_seq |].
  split; [rewrite Hids; apply seq_NoDup |].
  split; [observed Hrun |].
  split; [observed Hrun |].
  split; [exact Hperm |].
  split; [exact Hdisj |].
  intros p Hin.
  apply (Permutation_in p (Permutation_sym Hperm)) in Hin.
  apply in_app_or in Hin as [Hin | Hin].
  - left. split; auto.
  - right. split; auto. intros Hin'. exact (Hdisj p Hin' Hin).
Qed.

(** C5: each of the ten contour subclasses (bar, tristar, cross, star,
    acute, right, obtuse, quarter, semi, threeqtrs) is the concatenation of
    four patterns of size 0.50 and four patterns of size 0.25, so it holds
    2*variants = 8 patterns. *)
Theorem contour_subclasses_have_eight :
  exists ns k,
    notebook fresh_kernel = Ok (ns, k) /\
    contour_stimuli_subclasses ns = map (fun g => fst (fst g)) (contour_groups ns) /\
    List.length (contour_stimuli_subclasses ns) = 10%nat /\
    Forall (fun g => two_sizes (fst (fst g)) (snd (fst g)) (snd g))
           (contour_groups ns).
Proof.
  destruct (notebook_returns fresh_kernel) as (ns & k & Hrun).
  exists ns, k. split; [exact Hrun |].
  split; [observed Hrun |].
  split; [observed Hrun |].
  unfold contour_groups.
  repeat (apply Forall_cons;
          [ cbn [fst snd]; unfold two_sizes;
            repeat split; try (observed Hrun);
            [ apply (Forall_of_map_repeat _ _ size_of (Some (VFloat 0.50)) 4)
            | apply (Forall_of_map_repeat _ _ size_of (Some (VFloat 0.25)) 4) ];
            observed Hrun
          | ]).
  apply Forall_nil.
Qed.

(** C6: [all_stimuli_subclasses] is the four grating subclasses (the values
    of [sin], the values of [hyp], [concentric_like], [radial_like])
    followed by the ten contour subclasses: fourteen lists, in this order. *)
Theorem all_subclasses_are_fourteen :
  exists ns k,
    notebook fresh_kernel = Ok (ns, k) /\
    grating_stimuli_subclasses ns
    = [dict_values (sin ns); dict_values (hyp ns);
       concentric_like ns; radial_like ns] /\
    contour_stimuli_subclasses ns
    = [bar ns; tristar ns; cross ns; star ns; acute ns; right ns;
       obtuse ns; quarter ns; semi ns; threeqtrs ns] /\
    all_stimuli_subclasses ns
    = grating_stimuli_subclasses ns ++ contour_stimuli_subclasses ns /\
    List.length (grating_stimuli_subclasses ns) = 4%nat /\
    List.length (contour_stimuli_subclasses ns) = 10%nat /\
    List.length (all_stimuli_subclasses ns) = 14%nat /\
    firstn 4 (all_stimuli_subclasses ns) = grating_stimuli_subclasses ns /\
    skipn 4 (all_stimuli_subclasses ns) = contour_stimuli_subclasses ns.
Proof.
  destruct (notebook_returns fresh_kernel) as (ns & k & Hrun).
  exists ns, k. split; [exact Hrun |].
  assert (Hg : grating_stimuli_subclasses ns
               = [dict_values (sin ns); dict_values (hyp ns);
                  concentric_like ns; radial_like ns]) by observed Hrun.
  assert (Hc : contour_stimuli_subclasses ns
               = [bar ns; tristar ns; cross ns; star ns; acute ns; right ns;
                  obtuse ns; quarter ns; semi ns; threeqtrs ns]) by observed Hrun.
  assert (Ha : all_stimuli_subclasses ns
               = grating_stimuli_subclasses ns ++ contour_stimuli_subclasses ns)
    by observed Hrun.
  split; [exact Hg |].
  split; [exact Hc |].
  split; [exact Ha |].
  rewrite Ha, Hg, Hc. repeat split; reflexivity.
Qed.

(** C2, what the code does: the two adjacent literals make the one label
    "sinusoidalhyperbolic", so there are three grating labels for four
    grating subclasses and thirteen labels for fourteen subclasses.  Zipped
    with the subclasses, every later label is one place early ("concentric-like"
    meets the hyperbolic gratings) and [threeqtrs] meets no label. *)
Theorem labels_one_short :
  exists ns k,
    notebook fresh_kernel = Ok (ns, k) /\
    grating_stimuli_subclasses_labels ns
    = ["sinusoidalhyperbolic"; "concentric-like"; "radial-like"] /\
    all_stimuli_subclasses_labels ns
    = ["sinusoidalhyperbolic"; "concentric-like"; "radial-like";
       "bar"; "tri-star"; "cross"; "star/circle"; "acute angle"; "right angle";
       "obtuse angle"; "quarter arc"; "semi-circle"; "3/4 arc"] /\
    List.length (grating_stimuli_subclasses_labels ns) = 3%nat /\
    List.length (grating_stimuli_subclasses ns) = 4%nat /\
    List.length (all_stimuli_subclasses_labels ns) = 13%nat /\
    List.length (all_stimuli_subclasses ns) = 14%nat /\
    List.length (all_stimuli_subclasses_labels ns)
    <> List.length (all_stimuli_subclasses ns) /\
    nth_error (combine (all_stimuli_subclasses_labels ns) (all_stimuli_subclasses ns)) 1
    = Some ("concentric-like", dict_values (hyp ns)) /\
    nth_error (combine (all_stimuli_subclasses_labels ns) (all_stimuli_subclasses ns)) 12
    = Some ("3/4 arc", semi ns) /\
    nth_error (combine (all_stimuli_subclasses_labels ns) (all_stimuli_subclasses ns)) 13
    = None.
Proof.
  destruct (notebook_returns fresh_kernel) as (ns & k & Hrun).
  exists ns, k. split; [exact Hrun |].
  assert (Hl : List.length (all_stimuli_subclasses_labels ns) = 13%nat)
    by observed Hrun.
  assert (Hs : List.length (all_stimuli_subclasses ns) = 14%nat)
    by observed Hrun.
  repeat split; try (observed Hrun).
  rewrite Hl, Hs. discriminate.
Qed.

(** C7: the notebook runs to its end without an exception, from any state of
    the kernel; in the [ConcentricRings] comprehension each of the three
    denominators 1+j*0.5, 1+j*0.35, 1+j*0.15 is a float other than zero for
    every j of range(variants). *)
Theorem notebook_never_raises :
  (forall k0, exists ns k, notebook k0 = Ok (ns, k)) /\
  Forall (fun j => nonzero_float (ring_shrink j 0.5) /\
                   nonzero_float (ring_shrink j 0.35) /\
                   nonzero_float (ring_shrink j 0.15))
         (range variants).
Proof.
  split.
  - exact notebook_returns.
  - unfold variants, range.
    cbn [Z.to_nat Pos.to_nat Pos.iter_op Nat.add seq map Z.of_nat].
    repeat (apply Forall_cons;
            [ repeat split; eexists; (split; vm_compute; reflexivity) | ]).
    apply Forall_nil.
Qed.

(** C8: the cells display thirteen layouts, in this order: the sinusoidal
    and the hyperbolic gratings in 6 columns, then [polar] and the ten
    contour subclasses in 8 columns each; the layout of all stimuli offered
    in the closing cell has 8 columns too. *)
Theorem layout_columns :
  exists ns k,
    notebook fresh_kernel = Ok (ns, k) /\
    map (fun l => (patterns_of l, ncols_of l)) (rev (shown k))
    = [(dict_values (sin ns), Some 6);
       (dict_values (hyp ns), Some 6);
       (polar (polars ns), Some 8);
       (bar ns, Some 8); (tristar ns, Some 8); (cross ns, Some 8);
       (star ns, Some 8); (acute ns, Some 8); (right ns, Some 8);
       (obtuse ns, Some 8); (quarter ns, Some 8); (semi ns, Some 8);
       (threeqtrs ns, Some 8)] /\
    patterns_of (view_all ns) = List.concat (all_stimuli_subclasses ns) /\
    ncols_of (view_all ns) = Some 8.
Proof.
  destruct (notebook_returns fresh_kernel) as (ns & k & Hrun).
  exists ns, k. split; [exact Hrun |].
  split; [observed Hrun |].
  split; reflexivity.
Qed.

(** C9: the notebook makes 128 constructor calls, the ones that made the
    patterns of its fourteen subclasses, and every keyword argument of every
    call is an int or a finite float. *)
Theorem constructor_arguments_numeric :
  exists ns k,
    notebook fresh_kernel = Ok (ns, k) /\
    List.length (calls k) = 128%nat /\
    rev (calls k)
    = dict_values (sin ns) ++ dict_values (hyp ns) ++ polar (polars ns)
        ++ List.concat (contour_stimuli_subclasses ns) /\
    Forall numeric_call (calls k) /\
    Forall (Forall numeric_call) (all_stimuli_subclasses ns).
Proof.
  destruct (notebook_returns fresh_kernel) as (ns & k & Hrun).
  exists ns, k. split; [exact Hrun |].
  split; [observed Hrun |].
  split; [observed Hrun |].
  split.
  - apply Forall_numeric_call. observed Hrun.
  - assert (H : forallb (forallb numeric_callb) (all_stimuli_subclasses ns) = true)
      by observed Hrun.
    rewrite forallb_forall in H. apply Forall_forall.
    intros sub Hsub. apply Forall_numeric_call, H, Hsub.
Qed.

(** C10: whatever the state of the kernel when the notebook starts (objects
    made and layouts shown before), it runs to the end and enumerates the
    same parameter tuples for every subclass, and the same labels. *)
Theorem enumeration_deterministic :
  forall k1 k2,
  exists ns1 k1' ns2 k2',
    notebook k1 = Ok (ns1, k1') /\
    notebook k2 = Ok (ns2, k2') /\
    parameters ns1 = parameters ns2 /\
    all_stimuli_subclasses_labels ns1 = all_stimuli_subclasses_labels ns2.
Proof.
  intros k1 k2.
  destruct (notebook_returns k1) as (ns1 & k1' & Hrun1).
  destruct (notebook_returns k2) as (ns2 & k2' & Hrun2).
  exists ns1, k1', ns2, k2'.
  split; [exact Hrun1 |].
  split; [exact Hrun2 |].
  assert (H : observe zip_py2 k1
                (fun ns _ => (parameters ns, all_stimuli_subclasses_labels ns))
              = observe zip_py2 k2
                  (fun ns _ => (parameters ns, all_stimuli_subclasses_labels ns))).
  { destruct k1 as [n1 c1 s1], k2 as [n2 c2 s2]. vm_compute. reflexivity. }
  pose proof (observe_agree _ _ _ _ _ _ _ _ _ Hrun1 Hrun2 H) as Hboth.
  split; [exact (f_equal fst Hboth) | exact (f_equal snd Hboth)].
Qed.
